(** * Shape inference of the wide residual network builder (models/res.py)

    A shallow embedding of the block hierarchy of [models/res.py]
    ([BasicLayer], [ConvolutionBlock], [BottleneckBlock], [Group],
    [WideResidualNetwork]): the constructors, the forward pass [call] and
    the shape rule [compute_output_shape], with Python's exceptions made
    explicit in a small error monad. *)

From Stdlib Require Import ZArith List String Bool Lia.
Import ListNotations.
Open Scope Z_scope.

#[local] Set Warnings "-register-all".

(** ** Exceptions and results *)

Inductive exn : Type :=
| IndexError
| ZeroDivisionError
| ValueError
| TypeError.

Inductive result (A : Type) : Type :=
| Ok (a : A)
| Raise (e : exn).

Arguments Ok {A} a.
Arguments Raise {A} e.

Definition bind {A B : Type} (m : result A) (f : A -> result B) : result B :=
  match m with
  | Ok a => f a
  | Raise e => Raise e
  end.

Notation "x <- m ;; f" := (bind m (fun x => f))
  (at level 61, m at next level, right associativity).

(** ** Shapes *)

(** A shape is the sequence of its dimensions, [(batch, height, width,
    channels)] for the tensors of this network. *)
Definition shape : Type := list Z.

(** [input_shape[i]] for a literal index [i >= 0]. *)
Definition getitem (s : shape) (i : nat) : result Z :=
  match nth_error s i with
  | Some d => Ok d
  | None => Raise IndexError
  end.

(** [a // b] on Python integers: floor division, [ZeroDivisionError] on a
    zero divisor. [Z.div] rounds towards minus infinity as [//] does. *)
Definition floordiv (a b : Z) : result Z :=
  if b =? 0 then Raise ZeroDivisionError else Ok (a / b).

(** [TensorShape(dims)]: TensorFlow refuses a negative dimension with a
    [ValueError]. *)
Definition TensorShape (dims : list Z) : result shape :=
  if forallb (fun d => 0 <=? d) dims then Ok dims else Raise ValueError.

(** ** Layers *)

Inductive Padding : Type := same | valid.

(** The activation is passed around as a class and instantiated in every
    [ConvolutionBlock]; a class is identified by its name. *)
Definition ActivationClass : Type := string.
Definition ReLU : ActivationClass := "ReLU"%string.

(** The Keras layers the module instantiates, with the arguments it gives
    them. [Conv2D]'s first field is the optional [input_shape] keyword. *)
Inductive KerasLayer : Type :=
| BatchNormalization
| Activation (cls : ActivationClass)
| Conv2D (input_shape : option shape) (filters : Z) (kernel_size : Z * Z)
         (strides : Z) (padding : Padding)
| AvgPool2D (pool_size : Z).

Inductive LayerClass : Type :=
| BasicLayerCls
| ConvolutionBlockCls
| BottleneckBlockCls
| GroupCls.

(** A layer is a Keras layer or an instance of [BasicLayer] (or of one of
    its subclasses) with the four attributes [BasicLayer.__init__] stores. *)
Inductive Layer : Type :=
| Keras (l : KerasLayer)
| Block (cls : LayerClass) (sub_layers : list Layer) (stride filters k : Z).

Definition sub_layers (l : Layer) : list Layer :=
  match l with
  | Keras _ => []
  | Block _ subs _ _ _ => subs
  end.

Definition class_of (l : Layer) : option LayerClass :=
  match l with
  | Keras _ => None
  | Block cls _ _ _ _ => Some cls
  end.

(** The stride a layer is configured with: the [stride] attribute of a
    block, the [strides] of a convolution, the [pool_size] of a pooling
    layer (whose stride defaults to it), 1 for a shape-preserving layer. *)
Definition stride_of (l : Layer) : Z :=
  match l with
  | Block _ _ stride _ _ => stride
  | Keras (Conv2D _ _ _ strides _) => strides
  | Keras (AvgPool2D pool_size) => pool_size
  | Keras _ => 1
  end.

Definition filters_of (l : Layer) : Z :=
  match l with
  | Block _ _ _ filters _ => filters
  | Keras (Conv2D _ filters _ _ _) => filters
  | Keras _ => 0
  end.

Definition k_of (l : Layer) : Z :=
  match l with
  | Block _ _ _ _ k => k
  | Keras _ => 1
  end.

(** ** Constructors

    Python's default arguments ([stride=1], [k=1]) are written out at the
    call sites that rely on them. *)

(** [range(n)] *)
Definition range (n : Z) : list Z := map Z.of_nat (seq 0 (Z.to_nat n)).

(** [range(a, b)] *)
Definition range_from (a b : Z) : list Z := map (fun i => a + i) (range (b - a)).

Definition ConvolutionBlock (filters : Z) (kernel_size : Z * Z) (stride : Z)
    (activation : ActivationClass) (k : Z) : Layer :=
  Block ConvolutionBlockCls
    [ Keras BatchNormalization;
      Keras (Activation activation);
      Keras (Conv2D None (filters * k) kernel_size stride same) ]
    stride filters k.

Definition BottleneckBlock (filters stride : Z) (activation : ActivationClass)
    (k : Z) : Layer :=
  Block BottleneckBlockCls
    [ ConvolutionBlock (filters * k) (1, 1) stride activation 1;
      ConvolutionBlock (filters * k) (3, 3) 1 activation 1;
      ConvolutionBlock (filters * k) (1, 1) 1 activation 1 ]
    stride filters k.

Definition Group (n filters stride : Z) (activation : ActivationClass)
    (k : Z) : Layer :=
  Block GroupCls
    ([BottleneckBlock filters stride activation k]
     ++ map (fun _ => BottleneckBlock filters 1 activation k) (range (n - 1)))
    stride filters k.

Definition FILTER_SIZES : list Z := [16; 16; 32; 64].
Definition STRIDES : list Z := [4; 1; 2; 2].

(** [l[i]] on one of the two class constants; every index used below is in
    range. *)
Definition item (l : list Z) (i : Z) : Z := nth (Z.to_nat i) l 0.

Record WideResidualNetwork : Type := {
  groups : list Layer;
  pool_size : Z
}.

Definition WideResidualNetwork_init (input_shape : shape) (group_size : Z)
    (pool_size : Z) (activation : ActivationClass) (k : Z)
    : WideResidualNetwork :=
  {| groups :=
       [ Keras (Conv2D (Some input_shape) (item FILTER_SIZES 0) (3, 3)
                       (item STRIDES 0) same) ]
       ++ map (fun i => Group group_size (item FILTER_SIZES i)
                              (item STRIDES i) activation k)
              (range_from 1 (Z.of_nat (List.length FILTER_SIZES)))
       ++ [ Keras (AvgPool2D pool_size) ];
     pool_size := pool_size |}.

(** ** Construction-time failure

    None of the constructors above raises by itself; building a network
    can only fail inside the constructor of a Keras layer. Which arguments
    Keras refuses depends on its version, so the check is a parameter. *)

Section Construction.

Variable keras_accepts : KerasLayer -> bool.

Fixpoint constructible (l : Layer) : bool :=
  match l with
  | Keras kl => keras_accepts kl
  | Block _ subs _ _ _ => forallb constructible subs
  end.

Definition build (input_shape : shape) (group_size pool_size : Z)
    (activation : ActivationClass) (k : Z) : result WideResidualNetwork :=
  let net := WideResidualNetwork_init input_shape group_size pool_size
               activation k in
  if forallb constructible (groups net) then Ok net else Raise ValueError.

End Construction.

(** A Keras layer all of whose numeric arguments are positive; every
    version of Keras accepts such a layer. *)
Definition positive_arguments (kl : KerasLayer) : bool :=
  match kl with
  | BatchNormalization => true
  | Activation _ => true
  | Conv2D _ filters (kh, kw) strides _ =>
      (0 <? filters) && (0 <? kh) && (0 <? kw) && (0 <? strides)
  | AvgPool2D pool_size => 0 <? pool_size
  end.

(** Building one layer outside a network: as for [build], it fails when
    the constructor of one of its Keras layers refuses its arguments. *)
Definition construct (keras_accepts : KerasLayer -> bool) (l : Layer)
    : result Layer :=
  if constructible keras_accepts l then Ok l else Raise ValueError.

(** ** Forward pass *)

Section Forward.

Variable tensor : Type.
(** What a Keras layer does to a tensor. *)
Variable keras_call : KerasLayer -> tensor -> result tensor.

(** [for layer in layers: x = layer(x)] *)
Definition sequential (f : Layer -> tensor -> result tensor)
    : list Layer -> tensor -> result tensor :=
  fix loop (layers : list Layer) (x : tensor) : result tensor :=
    match layers with
    | [] => Ok x
    | layer :: rest => x' <- f layer x ;; loop rest x'
    end.

(** [layer(x)]: a Keras layer transforms its input; [BasicLayer.call]
    applies [sub_layers[0]] (an [IndexError] when there is none), then
    the layers of [sub_layers[1:]] in order. *)
Fixpoint call (self : Layer) (inputs : tensor) : result tensor :=
  match self with
  | Keras kl => keras_call kl inputs
  | Block _ subs _ _ _ =>
      match subs with
      | [] => Raise IndexError
      | first :: rest =>
          x <- call first inputs ;;
          sequential call rest x
      end
  end.

(** [WideResidualNetwork.call] *)
Definition WideResidualNetwork_call (self : WideResidualNetwork)
    (inputs : tensor) : result tensor :=
  match groups self with
  | [] => Raise IndexError
  | first :: rest =>
      x <- call first inputs ;;
      sequential call rest x
  end.

End Forward.

Arguments sequential {tensor} f layers x.
Arguments call {tensor} keras_call self inputs.
Arguments WideResidualNetwork_call {tensor} keras_call self inputs.

(** ** Output shapes of the Keras layers

    Keras computes the spatial size of a convolution or pooling output
    with [conv_output_length]: with "same" padding the input length, with
    "valid" padding the input length minus the window plus one, in both
    cases divided by the stride rounding up. *)
Definition conv_output_length (input_length filter_size : Z)
    (padding : Padding) (stride : Z) : Z :=
  let output_length :=
    match padding with
    | same => input_length
    | valid => input_length - filter_size + 1
    end in
  (output_length + stride - 1) / stride.

(** The shape of the tensor a Keras layer returns on an input of shape
    [x]. Normalisation and activation keep the shape; convolution and
    pooling need a rank 4 input and a positive stride; [AvgPool2D] is
    built with its defaults (stride [pool_size], padding "valid"). *)
Definition keras_shape (kl : KerasLayer) (x : shape) : result shape :=
  match kl with
  | BatchNormalization => Ok x
  | Activation _ => Ok x
  | Conv2D _ filters (kh, kw) strides padding =>
      match x with
      | [b; h; w; _] =>
          if strides <=? 0 then Raise ValueError
          else Ok [b; conv_output_length h kh padding strides;
                   conv_output_length w kw padding strides; filters]
      | _ => Raise ValueError
      end
  | AvgPool2D pool_size =>
      match x with
      | [b; h; w; c] =>
          if pool_size <=? 0 then Raise ValueError
          else Ok [b; conv_output_length h pool_size valid pool_size;
                   conv_output_length w pool_size valid pool_size; c]
      | _ => Raise ValueError
      end
  end.

(** The shape of [layer(x)] for [x] of shape [s]. *)
Definition call_shape (l : Layer) (s : shape) : result shape :=
  call keras_shape l s.

Definition WideResidualNetwork_call_shape (net : WideResidualNetwork)
    (s : shape) : result shape :=
  WideResidualNetwork_call keras_shape net s.

(** ** Shape rules *)

(** [BasicLayer.compute_output_shape], inherited unchanged by
    [ConvolutionBlock], [BottleneckBlock] and [Group]; the elements of the
    tuple are evaluated from left to right. A Keras layer reports the
    shape it produces. *)
Definition compute_output_shape (self : Layer) (input_shape : shape)
    : result shape :=
  match self with
  | Keras kl => keras_shape kl input_shape
  | Block _ _ stride filters k =>
      b <- getitem input_shape 0 ;;
      h <- getitem input_shape 1 ;;
      h' <- floordiv h stride ;;
      w <- getitem input_shape 2 ;;
      w' <- floordiv w stride ;;
      TensorShape [b; h'; w'; filters * k]
  end.


(** [np.product] *)
Definition np_product (l : list Z) : Z := fold_left Z.mul l 1.

(** [l[-1]] *)
Definition last_item (l : list Z) : Z := last l 0.

(** *** NumPy arithmetic

    [np.product(STRIDES)] is a NumPy 64-bit integer (NumPy 1.x, where
    [np.product] exists, on a 64-bit platform), so the rule of the network
    multiplies and divides as NumPy does: a Python integer that fits 64
    bits is taken as an int64, and the operation wraps around and yields 0
    on a zero divisor; a Python integer from [2^63] up to [2^64 - 1] is
    taken as a uint64, which together with an int64 gives a float64; any
    other Python integer makes NumPy fall back on Python's own integers. *)

Definition two63 : Z := 9223372036854775808.
Definition two64 : Z := 18446744073709551616.

Definition in_int64 (z : Z) : bool := (- two63 <=? z) && (z <? two63).
Definition in_uint64 (z : Z) : bool := (two63 <=? z) && (z <? two64).

Definition wrap_int64 (z : Z) : Z := (z + two63) mod two64 - two63.

(** A number of the rule: a NumPy int64, a NumPy float64 (whose value
    plays no part, since [TensorShape] refuses it) or a Python integer. *)
Inductive number : Type :=
| np_int64 (z : Z)
| np_float64
| py_int (z : Z).

(** [x * p] for the NumPy int64 [x] and the Python integer [p]. *)
Definition np_int64_mul (x p : Z) : number :=
  if in_int64 p then np_int64 (wrap_int64 (x * p))
  else if in_uint64 p then np_float64
  else py_int (x * p).

(** [n // d] for the Python integer [n]. *)
Definition np_floordiv (n : Z) (d : number) : result number :=
  match d with
  | np_int64 dv =>
      if in_int64 n then
        Ok (np_int64 (if dv =? 0 then 0 else wrap_int64 (n / dv)))
      else if in_uint64 n then Ok np_float64
      else if dv =? 0 then Raise ZeroDivisionError
      else Ok (py_int (n / dv))
  | np_float64 => Ok np_float64
  | py_int dv =>
      if dv =? 0 then Raise ZeroDivisionError else Ok (py_int (n / dv))
  end.

(** [TensorShape(dims)] on such numbers, from left to right: a
    [ValueError] for a negative integer, a [TypeError] for a float. *)
Fixpoint TensorShape_of (dims : list number) : result shape :=
  match dims with
  | [] => Ok []
  | np_float64 :: _ => Raise TypeError
  | np_int64 z :: rest | py_int z :: rest =>
      if z <? 0 then Raise ValueError
      else rest' <- TensorShape_of rest ;; Ok (z :: rest')
  end.

(** [WideResidualNetwork.compute_output_shape]; the elements of the tuple
    are evaluated from left to right. *)
Definition WideResidualNetwork_compute_output_shape
    (self : WideResidualNetwork) (input_shape : shape) : result shape :=
  let stride_product := np_product STRIDES in
  b <- getitem input_shape 0 ;;
  h <- getitem input_shape 1 ;;
  h' <- np_floordiv h (np_int64_mul stride_product (pool_size self)) ;;
  w <- getitem input_shape 2 ;;
  w' <- np_floordiv w (np_int64_mul stride_product (pool_size self)) ;;
  TensorShape_of [py_int b; h'; w'; py_int (last_item FILTER_SIZES)].

(** Threading a shape through the shape rules of a list of layers. *)
Definition thread_shapes (layers : list Layer) (input_shape : shape)
    : result shape :=
  sequential compute_output_shape layers input_shape.

(** The product of the strides of a list of layers. *)
Definition cumulative_stride (layers : list Layer) : Z :=
  fold_right (fun l acc => stride_of l * acc) 1 layers.

(** The Keras layers of a hierarchy, in the order the forward pass meets
    them, and what applying them one after the other gives. *)
Fixpoint leaves (l : Layer) : list KerasLayer :=
  match l with
  | Keras kl => [kl]
  | Block _ subs _ _ _ => flat_map leaves subs
  end.

Fixpoint pipeline {tensor : Type}
    (keras_call : KerasLayer -> tensor -> result tensor)
    (kls : list KerasLayer) (x : tensor) : result tensor :=
  match kls with
  | [] => Ok x
  | kl :: rest => x' <- keras_call kl x ;; pipeline keras_call rest x'
  end.

(** Every block of the hierarchy has at least one sub-layer. *)
Fixpoint inhabited (l : Layer) : bool :=
  match l with
  | Keras _ => true
  | Block _ subs _ _ _ =>
      match subs with [] => false | _ => forallb inhabited subs end
  end.

(** The spatial size the forward pass of the network gives an input of
    size [n]: the stem and the three groups divide by their strides 4, 1, 2
    and 2 rounding up, the pooling divides by its size rounding down. *)
Definition runtime_size (n pool : Z) : Z :=
  let stem := (n + 4 - 1) / 4 in
  let group1 := (stem + 1 - 1) / 1 in
  let group2 := (group1 + 2 - 1) / 2 in
  let group3 := (group2 + 2 - 1) / 2 in
  (group3 - pool + 1 + pool - 1) / pool.

(** The shape rule as the specification words it for a convolution unit
    (section 4.1): [(batch, ceil(h/stride), ceil(w/stride), filters*k)].
    It is compared below with [compute_output_shape]. *)
Definition ceil_div (a b : Z) : Z := - ((- a) / b).

Definition spec_unit_shape (stride filters k : Z) (s : shape) : option shape :=
  match s with
  | [b; h; w; _] => Some [b; ceil_div h stride; ceil_div w stride; filters * k]
  | _ => None
  end.

(** ** Convolutions of a hierarchy *)

(** The strides of the convolutions among a list of Keras layers, in
    order. *)
Fixpoint conv_strides (kls : list KerasLayer) : list Z :=
  match kls with
  | [] => []
  | Conv2D _ _ _ strides _ :: rest => strides :: conv_strides rest
  | _ :: rest => conv_strides rest
  end.

(** The Keras layers of a network. *)
Definition network_leaves (net : WideResidualNetwork) : list KerasLayer :=
  flat_map leaves (groups net).

(** ** Evaluation models (models/evaluation_model.py, [Res] and [Resf])

    [EvaluationModel.__init__] stores two attributes, calls the
    [_build_model] of the subclass and then [_compile_model]. What is
    outside this module is a parameter: which arguments the Keras
    constructors accept, whether [EmdWeightHeadStart()] returns, and
    whether compiling a Keras model returns. *)

Inductive failure : Type :=
| KerasError (e : exn)
| ExternalError
| AttributeError (attribute : string).

Inductive outcome (A : Type) : Type :=
| Returns (a : A)
| Fails (f : failure).

Arguments Returns {A} a.
Arguments Fails {A} f.

Inductive ModelClass : Type := ResCls | ResfCls.

Section EvaluationModels.

Variable keras_accepts : KerasLayer -> bool.
(** [Dense(units, ...)] returns. *)
Variable dense_accepts : Z -> bool.
Variables LearningRate DatasetName Callback Model : Type.
(** [EmdWeightHeadStart()]: the callback, or [None] when it raises. *)
Variable EmdWeightHeadStart : option Callback.
(** [model.compile(...)], with the evaluation of its arguments, returns. *)
Variable compile_returns : Model -> bool.

(** The attributes of an instance, [None] for an attribute that is not
    set ([flatten] holds no data). [model] is the class attribute, [None]
    until an instance assigns it. *)
Record EvaluationModel : Type := {
  learning_rate : option LearningRate;
  dataset_name : option DatasetName;
  model : option Model;
  wrn : option WideResidualNetwork;
  flatten : bool;
  dense3 : option (Z * string);
  emd_weight_head_start : option Callback
}.

Definition new_instance : EvaluationModel :=
  {| learning_rate := None; dataset_name := None; model := None;
     wrn := None; flatten := false; dense3 := None;
     emd_weight_head_start := None |}.

(** [Res._build_model]: the network is built with its defaults
    [pool_size=8] and [k=1]. No attribute [model] is assigned. *)
Definition Res_build_model (self : EvaluationModel) (number_of_classes : Z)
    (final_activation : string) : outcome EvaluationModel :=
  match build keras_accepts [227; 227; 3] 13 8 ReLU 1 with
  | Raise e => Fails (KerasError e)
  | Ok net =>
      if dense_accepts number_of_classes then
        Returns {| learning_rate := learning_rate self;
                   dataset_name := dataset_name self;
                   model := model self;
                   wrn := Some net;
                   flatten := true;
                   dense3 := Some (number_of_classes, final_activation);
                   emd_weight_head_start := emd_weight_head_start self |}
      else Fails (KerasError ValueError)
  end.

(** [Resf._build_model]: [pass]. *)
Definition Resf_build_model (self : EvaluationModel) (number_of_classes : Z)
    (final_activation : string) : outcome EvaluationModel :=
  Returns self.

Definition build_model (cls : ModelClass) :
    EvaluationModel -> Z -> string -> outcome EvaluationModel :=
  match cls with
  | ResCls => Res_build_model
  | ResfCls => Resf_build_model
  end.

(** [EvaluationModel._compile_model]: the callback is created and stored,
    then [self.model.compile] is looked up, before any argument of the
    call is evaluated. *)
Definition compile_model (self : EvaluationModel) : outcome EvaluationModel :=
  match EmdWeightHeadStart with
  | None => Fails ExternalError
  | Some callback =>
      let self' := {| learning_rate := learning_rate self;
                      dataset_name := dataset_name self;
                      model := model self;
                      wrn := wrn self;
                      flatten := flatten self;
                      dense3 := dense3 self;
                      emd_weight_head_start := Some callback |} in
      match model self' with
      | None => Fails (AttributeError "compile")
      | Some m =>
          if compile_returns m then Returns self' else Fails ExternalError
      end
  end.

(** [EvaluationModel.__init__]. The loss function and its keyword
    arguments are only used among the arguments of [compile]. *)
Definition EvaluationModel_init (cls : ModelClass) (number_of_classes : Z)
    (final_activation : string) (learning_rate : LearningRate)
    (dataset_name : DatasetName) : outcome EvaluationModel :=
  let self := {| learning_rate := Some learning_rate;
                 dataset_name := Some dataset_name;
                 model := model new_instance; wrn := wrn new_instance;
                 flatten := flatten new_instance;
                 dense3 := dense3 new_instance;
                 emd_weight_head_start :=
                   emd_weight_head_start new_instance |} in
  match build_model cls self number_of_classes final_activation with
  | Fails f => Fails f
  | Returns self' => compile_model self'
  end.

End EvaluationModels.

(** ** Preprocessing (data_handlers/preprocessing.py) *)








(** * Properties *)

(** ** The error monad *)

Lemma bind_ok {A : Type} (m : result A) : (x <- m ;; Ok x) = m.
Proof. destruct m; reflexivity. Qed.

(** ** Lists built by the constructors *)

Lemma map_const_repeat {A B : Type} (b : B) (l : list A) :
  map (fun _ => b) l = repeat b (List.length l).
Proof.
  induction l as [|a l IH]; simpl; [reflexivity | now rewrite IH].
Qed.

Lemma range_length (n : Z) : List.length (range n) = Z.to_nat n.
Proof. unfold range. now rewrite length_map, length_seq. Qed.

(** A group holds its strided unit followed by [n - 1] copies of the
    stride 1 unit (none when [n <= 1]). *)
Lemma Group_eq (n filters stride : Z) (a : ActivationClass) (k : Z) :
  Group n filters stride a k =
    Block GroupCls
      (BottleneckBlock filters stride a k
       :: repeat (BottleneckBlock filters 1 a k) (Z.to_nat (n - 1)))
      stride filters k.
Proof.
  unfold Group; simpl. now rewrite map_const_repeat, range_length.
Qed.

Lemma Group_sub_layers (n filters stride : Z) (a : ActivationClass) (k : Z) :
  sub_layers (Group n filters stride a k) =
    BottleneckBlock filters stride a k
    :: repeat (BottleneckBlock filters 1 a k) (Z.to_nat (n - 1)).
Proof. now rewrite Group_eq. Qed.

Lemma WideResidualNetwork_groups (ishape : shape) (group_size pool : Z)
    (a : ActivationClass) (k : Z) :
  groups (WideResidualNetwork_init ishape group_size pool a k) =
    [ Keras (Conv2D (Some ishape) 16 (3, 3) 4 same);
      Group group_size 16 1 a k;
      Group group_size 32 2 a k;
      Group group_size 64 2 a k;
      Keras (AvgPool2D pool) ].
Proof. reflexivity. Qed.

(** ** The forward pass is a composition *)

Section ForwardFacts.

Variable tensor : Type.
Variable keras_call : KerasLayer -> tensor -> result tensor.

Lemma call_block (cls : LayerClass) (first : Layer) (rest : list Layer)
    (stride filters k : Z) (x : tensor) :
  call keras_call (Block cls (first :: rest) stride filters k) x =
    sequential (call keras_call) (first :: rest) x.
Proof. reflexivity. Qed.

Lemma pipeline_app (l1 l2 : list KerasLayer) (x : tensor) :
  pipeline keras_call (l1 ++ l2) x =
    (y <- pipeline keras_call l1 x ;; pipeline keras_call l2 y).
Proof.
  revert x; induction l1 as [|l l1 IH]; intro x; simpl; [reflexivity|].
  destruct (keras_call l x) as [y|e]; simpl; [apply IH | reflexivity].
Qed.

(** A unit that leaves [x] as it is can be repeated at will. *)
Lemma sequential_repeat_fixed (f : Layer -> tensor -> result tensor)
    (unit : Layer) (x : tensor) (m : nat) :
  f unit x = Ok x -> sequential f (repeat unit m) x = Ok x.
Proof.
  intro H; induction m as [|m IH]; simpl; [reflexivity|].
  rewrite H; simpl. exact IH.
Qed.

(** Induction on the hierarchy: the sub-layers of a block satisfy the
    property. *)
Lemma Layer_nested_ind (P : Layer -> Prop) :
  (forall kl, P (Keras kl)) ->
  (forall cls subs stride filters k,
      Forall P subs -> P (Block cls subs stride filters k)) ->
  forall l, P l.
Proof.
  intros HK HB.
  fix self 1.
  intros [kl | cls subs stride filters k]; [apply HK | apply HB].
  induction subs as [|l subs IH]; constructor; [apply self | exact IH].
Qed.

Lemma sequential_pipeline (subs : list Layer) :
  Forall (fun l => inhabited l = true ->
            forall x, call keras_call l x = pipeline keras_call (leaves l) x)
         subs ->
  forallb inhabited subs = true ->
  forall x, sequential (call keras_call) subs x =
            pipeline keras_call (flat_map leaves subs) x.
Proof.
  induction 1 as [|l subs Hl _ IH]; intros Hin x; simpl; [reflexivity|].
  simpl in Hin; apply andb_prop in Hin as [Hl' Hsubs].
  rewrite pipeline_app, (Hl Hl').
  destruct (pipeline keras_call (leaves l) x) as [y|e]; simpl;
    [now apply IH | reflexivity].
Qed.

(** The forward pass of any hierarchy is the pipeline of its Keras layers. *)
Lemma call_pipeline (l : Layer) :
  inhabited l = true ->
  forall x, call keras_call l x = pipeline keras_call (leaves l) x.
Proof.
  induction l as [kl | cls subs stride filters k IH] using Layer_nested_ind;
    intros Hin x.
  - simpl. now rewrite bind_ok.
  - destruct subs as [|first rest]; [discriminate Hin|].
    rewrite call_block. apply sequential_pipeline; assumption.
Qed.

End ForwardFacts.

(** ** The shape rule of a block *)

Lemma TensorShape_nonneg (b h w c : Z) :
  0 <= b -> 0 <= h -> 0 <= w -> 0 <= c ->
  TensorShape [b; h; w; c] = Ok [b; h; w; c].
Proof.
  intros Hb Hh Hw Hc. unfold TensorShape; simpl.
  now rewrite !(proj2 (Z.leb_le 0 _)) by assumption.
Qed.

Lemma TensorShape_inv (dims s : list Z) :
  TensorShape dims = Ok s -> s = dims /\ Forall (fun d => 0 <= d) dims.
Proof.
  unfold TensorShape. destruct (forallb _ dims) eqn:E; [|discriminate].
  intro H; injection H as <-. split; [reflexivity|].
  rewrite forallb_forall in E. apply Forall_forall.
  intros d Hd. apply Z.leb_le. now apply E.
Qed.

(** The rule of a block, whatever its class and sub-layers: the spatial
    sizes are divided by the stride rounding down. *)
Lemma block_shape_rule (cls : LayerClass) (subs : list Layer)
    (stride filters k b h w c : Z) :
  stride <> 0 -> 0 <= b -> 0 <= h / stride -> 0 <= w / stride ->
  0 <= filters * k ->
  compute_output_shape (Block cls subs stride filters k) [b; h; w; c] =
    Ok [b; h / stride; w / stride; filters * k].
Proof.
  intros Hs Hb Hh Hw Hc. unfold compute_output_shape, floordiv; simpl.
  apply Z.eqb_neq in Hs; rewrite Hs; simpl.
  now apply TensorShape_nonneg.
Qed.

(** The rule only reads the class-independent attributes. *)
Lemma compute_output_shape_attributes (cls cls' : LayerClass)
    (subs subs' : list Layer) (stride filters k : Z) (s : shape) :
  compute_output_shape (Block cls subs stride filters k) s =
  compute_output_shape (Block cls' subs' stride filters k) s.
Proof. reflexivity. Qed.

(** A stride 1 block whose channel count a shape already has maps that
    shape to itself, provided the shape is one [TensorShape] accepts. *)
Lemma stride1_rule_fixed (cls : LayerClass) (subs : list Layer)
    (filters k b h w : Z) :
  0 <= b -> 0 <= h -> 0 <= w -> 0 <= filters * k ->
  compute_output_shape (Block cls subs 1 filters k) [b; h; w; filters * k] =
    Ok [b; h; w; filters * k].
Proof.
  intros Hb Hh Hw Hc.
  rewrite block_shape_rule; rewrite ?Z.div_1_r; try assumption; [reflexivity|lia].
Qed.

(** The result of a block's rule, when there is one, is a list of four
    non-negative dimensions ending in [filters * k]. *)
Lemma block_shape_rule_inv (cls : LayerClass) (subs : list Layer)
    (stride filters k : Z) (s out : shape) :
  compute_output_shape (Block cls subs stride filters k) s = Ok out ->
  exists b h w, out = [b; h; w; filters * k] /\
                0 <= b /\ 0 <= h /\ 0 <= w /\ 0 <= filters * k.
Proof.
  unfold compute_output_shape.
  destruct (getitem s 0) as [b|]; simpl; [|discriminate].
  destruct (getitem s 1) as [h|]; simpl; [|discriminate].
  destruct (floordiv h stride) as [h'|]; simpl; [|discriminate].
  destruct (getitem s 2) as [w|]; simpl; [|discriminate].
  destruct (floordiv w stride) as [w'|]; simpl; [|discriminate].
  intro H; apply TensorShape_inv in H as [-> HF].
  exists b, h', w'. split; [reflexivity|].
  repeat match goal with
         | H : Forall _ (_ :: _) |- _ => inversion H; subst; clear H
         end.
  auto.
Qed.

(** ** Shapes produced by the forward pass *)

Lemma ConvolutionBlock_call_shape (filters : Z) (ksize : Z * Z) (stride : Z)
    (a : ActivationClass) (k b h w c : Z) :
  0 < stride ->
  call_shape (ConvolutionBlock filters ksize stride a k) [b; h; w; c] =
    Ok [b; (h + stride - 1) / stride; (w + stride - 1) / stride; filters * k].
Proof.
  intro Hs. destruct ksize as [kh kw].
  unfold call_shape, ConvolutionBlock; simpl.
  apply Z.leb_gt in Hs; rewrite Hs. reflexivity.
Qed.

Lemma BottleneckBlock_call_shape (filters stride : Z) (a : ActivationClass)
    (k b h w c : Z) :
  0 < stride ->
  call_shape (BottleneckBlock filters stride a k) [b; h; w; c] =
    Ok [b; (h + stride - 1) / stride; (w + stride - 1) / stride; filters * k].
Proof.
  intro Hs. unfold call_shape, BottleneckBlock.
  rewrite call_block. cbn [sequential].
  fold (call_shape (ConvolutionBlock (filters * k) (1, 1) stride a 1) [b; h; w; c]).
  rewrite ConvolutionBlock_call_shape by assumption. cbn [bind].
  match goal with
  | |- context [call keras_shape ?l ?s] => fold (call_shape l s)
  end.
  rewrite ConvolutionBlock_call_shape by lia. cbn [bind].
  match goal with
  | |- context [call keras_shape ?l ?s] => fold (call_shape l s)
  end.
  rewrite ConvolutionBlock_call_shape by lia. cbn [bind].
  rewrite !Z.div_1_r, !Z.mul_1_r.
  replace ((h + stride - 1) / stride + 1 - 1 + 1 - 1)
    with ((h + stride - 1) / stride) by lia.
  replace ((w + stride - 1) / stride + 1 - 1 + 1 - 1)
    with ((w + stride - 1) / stride) by lia.
  reflexivity.
Qed.

Lemma Group_call_shape (n filters stride : Z) (a : ActivationClass)
    (k b h w c : Z) :
  0 < stride ->
  call_shape (Group n filters stride a k) [b; h; w; c] =
    Ok [b; (h + stride - 1) / stride; (w + stride - 1) / stride; filters * k].
Proof.
  intro Hs. unfold call_shape.
  rewrite Group_eq, call_block. cbn [sequential].
  fold (call_shape (BottleneckBlock filters stride a k) [b; h; w; c]).
  rewrite BottleneckBlock_call_shape by assumption. cbn [bind].
  apply sequential_repeat_fixed.
  fold (call_shape (BottleneckBlock filters 1 a k)
          [b; (h + stride - 1) / stride; (w + stride - 1) / stride; filters * k]).
  rewrite BottleneckBlock_call_shape by lia.
  rewrite !Z.div_1_r.
  replace ((h + stride - 1) / stride + 1 - 1)
    with ((h + stride - 1) / stride) by lia.
  replace ((w + stride - 1) / stride + 1 - 1)
    with ((w + stride - 1) / stride) by lia.
  reflexivity.
Qed.

Lemma WideResidualNetwork_call_shape_eq (ishape : shape)
    (group_size pool : Z) (a : ActivationClass) (k b h w c : Z) :
  0 < pool ->
  WideResidualNetwork_call_shape
    (WideResidualNetwork_init ishape group_size pool a k) [b; h; w; c] =
    Ok [b; runtime_size h pool; runtime_size w pool; 64 * k].
Proof.
  intro Hp.
  unfold WideResidualNetwork_call_shape, WideResidualNetwork_call.
  rewrite WideResidualNetwork_groups.
  cbn [call keras_shape bind sequential Z.leb Z.compare].
  repeat (match goal with
          | |- context [call keras_shape (Group ?n ?f ?s ?a ?k) ?x] =>
              fold (call_shape (Group n f s a k) x)
          end; rewrite Group_call_shape by lia; cbn [bind]).
  cbn [call keras_shape bind].
  apply Z.leb_gt in Hp; rewrite Hp.
  unfold runtime_size, conv_output_length. reflexivity.
Qed.

Lemma wrap_int64_small (z : Z) : - two63 <= z < two63 -> wrap_int64 z = z.
Proof.
  unfold wrap_int64, two63, two64. intro H.
  rewrite Z.mod_small by (unfold two63 in H; lia). lia.
Qed.

Lemma in_int64_true (z : Z) : - two63 <= z < two63 -> in_int64 z = true.
Proof.
  intro H. unfold in_int64.
  rewrite (proj2 (Z.leb_le _ _)), (proj2 (Z.ltb_lt _ _)) by lia. reflexivity.
Qed.

(** Within 64 bits the quotient by [16 * pool_size] is the floored
    quotient of the integers. *)
Lemma np_floordiv_small (n pool : Z) :
  0 <= n < two63 -> 0 < pool -> 16 * pool < two63 ->
  np_floordiv n (np_int64_mul 16 pool) = Ok (np_int64 (n / (16 * pool))).
Proof.
  intros Hn Hp Hd. unfold np_int64_mul, np_floordiv.
  rewrite in_int64_true by (unfold two63 in *; lia).
  rewrite wrap_int64_small by (unfold two63 in *; lia).
  rewrite in_int64_true by (unfold two63 in *; lia).
  destruct (16 * pool =? 0) eqn:E; [apply Z.eqb_eq in E; lia|].
  assert (Hq : 0 <= n / (16 * pool) <= n).
  { split; [apply Z.div_pos; lia|].
    apply Z.div_le_upper_bound; [lia|]. nia. }
  rewrite wrap_int64_small by (unfold two63 in *; lia). reflexivity.
Qed.

(** The rule of the network on dimensions that are not negative, within 64
    bits. *)
Lemma WideResidualNetwork_shape_rule (ishape : shape) (group_size pool : Z)
    (a : ActivationClass) (k b h w c : Z) :
  0 <= b -> 0 <= h < two63 -> 0 <= w < two63 ->
  0 < pool -> 16 * pool < two63 ->
  WideResidualNetwork_compute_output_shape
    (WideResidualNetwork_init ishape group_size pool a k) [b; h; w; c] =
    Ok [b; h / (16 * pool); w / (16 * pool); 64].
Proof.
  intros Hb Hh Hw Hp Hd. unfold WideResidualNetwork_compute_output_shape.
  cbn [getitem nth_error bind pool_size WideResidualNetwork_init].
  change (np_product STRIDES) with 16. change (last_item FILTER_SIZES) with 64.
  rewrite !np_floordiv_small by assumption. cbn [bind TensorShape_of].
  rewrite !(proj2 (Z.ltb_ge _ 0)); try lia; try (apply Z.div_pos; lia).
  reflexivity.
Qed.

(** The channel count the rule of the network reports is that of the
    forward pass for the width multiplier 1 only. *)
Lemma network_rule_channels_agree_iff (ishape : shape)
    (group_size pool : Z) (a : ActivationClass) (k b h w c : Z) :
  0 <= b -> 0 <= h < two63 -> 0 <= w < two63 ->
  0 < pool -> 16 * pool < two63 ->
  let net := WideResidualNetwork_init ishape group_size pool a k in
  (exists b1 h1 w1 b2 h2 w2 ch,
      WideResidualNetwork_compute_output_shape net [b; h; w; c]
        = Ok [b1; h1; w1; ch]
      /\ WideResidualNetwork_call_shape net [b; h; w; c]
        = Ok [b2; h2; w2; ch])
  <-> k = 1.
Proof.
  intros Hb Hh Hw Hp Hd net; subst net.
  rewrite WideResidualNetwork_shape_rule, WideResidualNetwork_call_shape_eq
    by assumption.
  split.
  - intros (b1 & h1 & w1 & b2 & h2 & w2 & ch & E1 & E2).
    assert (H1 : ch = 64) by congruence.
    assert (H2 : 64 * k = ch) by congruence. lia.
  - intros ->. do 6 eexists. exists 64. split; reflexivity.
Qed.

(** Two blocks with the same stride and the same product [filters * k]
    have the same rule. *)
Lemma rule_channels_eq (cls cls' : LayerClass) (subs subs' : list Layer)
    (stride filters k filters' k' : Z) (s : shape) :
  filters * k = filters' * k' ->
  compute_output_shape (Block cls subs stride filters k) s =
  compute_output_shape (Block cls' subs' stride filters' k') s.
Proof. intro E. unfold compute_output_shape. now rewrite E. Qed.

(** A stride 1 block with the channel count of the block before it keeps
    the shape that block's rule returns. *)
Lemma rule_then_stride1 (cls cls' : LayerClass) (subs subs' : list Layer)
    (stride filters k filters' k' : Z) (s out : shape) :
  filters' * k' = filters * k ->
  compute_output_shape (Block cls subs stride filters k) s = Ok out ->
  compute_output_shape (Block cls' subs' 1 filters' k') out = Ok out.
Proof.
  intros E H.
  apply block_shape_rule_inv in H as (b & h & w & -> & Hb & Hh & Hw & Hc).
  rewrite <- E. apply stride1_rule_fixed; try assumption. now rewrite E.
Qed.

Lemma forallb_repeat {A : Type} (p : A -> bool) (x : A) (m : nat) :
  p x = true -> forallb p (repeat x m) = true.
Proof.
  intro H; induction m as [|m IH]; simpl; [reflexivity | now rewrite H].
Qed.

Lemma inhabited_Group (n filters stride : Z) (a : ActivationClass) (k : Z) :
  inhabited (Group n filters stride a k) = true.
Proof.
  rewrite Group_eq.
  cbn [inhabited forallb]. fold inhabited.
  now rewrite forallb_repeat.
Qed.

(** ** Strides of a group *)

Lemma cumulative_stride_repeat1 (unit : Layer) (m : nat) :
  stride_of unit = 1 -> cumulative_stride (repeat unit m) = 1.
Proof.
  intro H; induction m as [|m IH]; simpl; [reflexivity|].
  fold (cumulative_stride (repeat unit m)). rewrite H, IH. reflexivity.
Qed.

Lemma exact_same_division (stride n : Z) :
  0 < stride -> (stride * n + stride - 1) / stride = n.
Proof.
  intro Hs.
  replace (stride * n + stride - 1) with (n * stride + (stride - 1)) by lia.
  rewrite Z.div_add_l by lia. rewrite Z.div_small by lia. lia.
Qed.

(** ** Construction *)

Section ConstructionFacts.

Variable keras_accepts : KerasLayer -> bool.
Hypothesis accepts_positive :
  forall kl, positive_arguments kl = true -> keras_accepts kl = true.

Lemma constructible_ConvolutionBlock (filters : Z) (ksize : Z * Z)
    (stride : Z) (a : ActivationClass) (k : Z) :
  0 < filters * k -> 0 < fst ksize -> 0 < snd ksize -> 0 < stride ->
  constructible keras_accepts (ConvolutionBlock filters ksize stride a k) = true.
Proof.
  intros Hf Hkh Hkw Hs. destruct ksize as [kh kw]; simpl in Hkh, Hkw.
  cbn [ConvolutionBlock constructible forallb].
  rewrite !accepts_positive; try reflexivity.
  cbn [positive_arguments].
  now rewrite !(proj2 (Z.ltb_lt 0 _)) by assumption.
Qed.

Lemma constructible_BottleneckBlock (filters stride : Z)
    (a : ActivationClass) (k : Z) :
  0 < filters * k -> 0 < stride ->
  constructible keras_accepts (BottleneckBlock filters stride a k) = true.
Proof.
  intros Hf Hs. unfold BottleneckBlock.
  cbn [constructible forallb]. fold (constructible keras_accepts).
  rewrite !constructible_ConvolutionBlock by (simpl; lia). reflexivity.
Qed.

Lemma constructible_Group (n filters stride : Z) (a : ActivationClass)
    (k : Z) :
  0 < filters * k -> 0 < stride ->
  constructible keras_accepts (Group n filters stride a k) = true.
Proof.
  intros Hf Hs.
  rewrite Group_eq.
  cbn [constructible forallb]. fold (constructible keras_accepts).
  rewrite constructible_BottleneckBlock by assumption.
  rewrite forallb_repeat; [reflexivity|].
  apply constructible_BottleneckBlock; lia.
Qed.

End ConstructionFacts.

(** * Statements of the specification *)

(** C1 (evaluation at the failing input). With width multiplier [k = 2],
    pool size 8 and any group depth, on an input of shape (1, 227, 227, 3)
    the shape rule of the network reports 64 output channels, while the
    forward pass of the same network produces 128 = 64 * 2 channels: the
    rule returns [FILTER_SIZES[-1]] without the width multiplier. *)
Theorem network_rule_ignores_width_multiplier (ishape : shape)
    (group_size : Z) (a : ActivationClass) :
  let net := WideResidualNetwork_init ishape group_size 8 a 2 in
  WideResidualNetwork_compute_output_shape net [1; 227; 227; 3]
    = Ok [1; 1; 1; 64]
  /\ WideResidualNetwork_call_shape net [1; 227; 227; 3]
    = Ok [1; 1; 1; 128]
  /\ last_item FILTER_SIZES * 2 = 128.
Proof.
  intro net; subst net. split; [|split].
  - rewrite WideResidualNetwork_shape_rule by (unfold two63; lia).
    reflexivity.
  - rewrite WideResidualNetwork_call_shape_eq by lia. reflexivity.
  - reflexivity.
Qed.

(** C2 (evaluation at the failing input). For a convolution unit with 16
    filters and stride 2 on an input of shape (1, 5, 5, 3) the shape rule
    returns (1, 2, 2, 16): it rounds 5/2 down, where the rule of the
    specification, and the "same"-padded convolution of the unit itself,
    give (1, 3, 3, 16). *)
Theorem unit_rule_rounds_down :
  compute_output_shape (ConvolutionBlock 16 (3, 3) 2 ReLU 1) [1; 5; 5; 3]
    = Ok [1; 2; 2; 16]
  /\ spec_unit_shape 2 16 1 [1; 5; 5; 3] = Some [1; 3; 3; 16]
  /\ call_shape (ConvolutionBlock 16 (3, 3) 2 ReLU 1) [1; 5; 5; 3]
    = Ok [1; 3; 3; 16].
Proof. repeat split. Qed.

(** C3. With the default configuration (pool size 8, [k = 1], the filter
    and stride schedules of the class) and any group depth, the forward
    pass maps an input of shape (1, 227, 227, 3) to an output of shape
    (1, 1, 1, 64), and the shape rule of the network computes the same
    shape for that input. *)
Theorem default_network_output_shape (ishape : shape) (group_size : Z)
    (a : ActivationClass) :
  let net := WideResidualNetwork_init ishape group_size 8 a 1 in
  WideResidualNetwork_call_shape net [1; 227; 227; 3] = Ok [1; 1; 1; 64]
  /\ WideResidualNetwork_compute_output_shape net [1; 227; 227; 3]
     = Ok [1; 1; 1; 64].
Proof.
  intro net; subst net. split.
  - rewrite WideResidualNetwork_call_shape_eq by lia. reflexivity.
  - rewrite WideResidualNetwork_shape_rule by (unfold two63; lia).
    reflexivity.
Qed.

(** C4. A group built with [n >= 1] units and stride [s >= 1] holds
    exactly [n] bottleneck units; the first one carries stride [s], each of
    the other [n - 1] has stride 1, all have the filter count and width
    multiplier of the group. The product of the strides of the units is
    therefore [s], and the forward pass of the group turns spatial sizes
    [s * h] and [s * w] into [h] and [w]: the reduction factor is [s]. *)
Theorem Group_stride_applied_once (n filters s : Z) (a : ActivationClass)
    (k b h w c : Z) :
  1 <= n -> 1 <= s ->
  let units := sub_layers (Group n filters s a k) in
  List.length units = Z.to_nat n
  /\ nth_error units 0 = Some (BottleneckBlock filters s a k)
  /\ (forall i, (1 <= i < Z.to_nat n)%nat ->
        nth_error units i = Some (BottleneckBlock filters 1 a k))
  /\ stride_of (BottleneckBlock filters s a k) = s
  /\ stride_of (BottleneckBlock filters 1 a k) = 1
  /\ Forall (fun u => class_of u = Some BottleneckBlockCls
                      /\ filters_of u = filters /\ k_of u = k) units
  /\ cumulative_stride units = s
  /\ call_shape (Group n filters s a k) [b; s * h; s * w; c]
     = Ok [b; h; w; filters * k].
Proof.
  intros Hn Hs units; subst units. rewrite Group_sub_layers.
  repeat split.
  - simpl. rewrite repeat_length. lia.
  - intros i Hi. destruct i as [|i]; [lia|]. simpl.
    rewrite nth_error_repeat by lia. reflexivity.
  - constructor; [repeat split|].
    apply Forall_forall. intros u Hu. apply repeat_spec in Hu. subst u.
    repeat split.
  - simpl. fold (cumulative_stride
                   (repeat (BottleneckBlock filters 1 a k) (Z.to_nat (n - 1)))).
    rewrite cumulative_stride_repeat1 by reflexivity. lia.
  - rewrite Group_call_shape by lia.
    rewrite !exact_same_division by lia. reflexivity.
Qed.

Lemma Group_stride_applied_once_witness :
  1 <= 3 /\ 1 <= 2 /\
  cumulative_stride (sub_layers (Group 3 16 2 ReLU 1)) = 2 /\
  call_shape (Group 3 16 2 ReLU 1) [1; 2 * 7; 2 * 5; 3] = Ok [1; 7; 5; 16 * 1].
Proof.
  split; [lia|]. split; [lia|].
  pose proof (Group_stride_applied_once 3 16 2 ReLU 1 1 7 5 3
                ltac:(lia) ltac:(lia)) as H.
  split; apply H.
Defined.

(** C5 (counterexample). With a group depth of 0, and a Keras that accepts
    nothing but positive arguments, construction does not fail: it returns
    the complete network. *)
Lemma zero_group_depth_is_built :
  build positive_arguments [227; 227; 3] 0 8 ReLU 1
    = Ok (WideResidualNetwork_init [227; 227; 3] 0 8 ReLU 1)
  /\ ~ (exists e, build positive_arguments [227; 227; 3] 0 8 ReLU 1 = Raise e).
Proof.
  split; [reflexivity|]. intros [e H]. discriminate H.
Qed.

(** C6. Whatever the Keras layers do to a tensor, the forward pass of a
    bottleneck unit is its three convolution units applied one after the
    other to the input; a group of depth 1 does what its single bottleneck
    unit does; a group of any depth applies its units in sequence; and the
    forward pass of a group, and of the whole network, is the pipeline of
    its Keras layers in order, none of which is an addition. In particular
    a bottleneck unit whose Keras layers all return their input returns its
    input [x], not [x + x]. *)
Theorem forward_pass_is_feed_forward (tensor : Type)
    (keras_call : KerasLayer -> tensor -> result tensor)
    (ishape : shape) (group_size pool n filters stride : Z)
    (a : ActivationClass) (k : Z) (x : tensor) :
  call keras_call (BottleneckBlock filters stride a k) x =
    (x1 <- call keras_call (ConvolutionBlock (filters * k) (1, 1) stride a 1) x ;;
     x2 <- call keras_call (ConvolutionBlock (filters * k) (3, 3) 1 a 1) x1 ;;
     call keras_call (ConvolutionBlock (filters * k) (1, 1) 1 a 1) x2)
  /\ call keras_call (Group 1 filters stride a k) x =
     call keras_call (BottleneckBlock filters stride a k) x
  /\ call keras_call (Group n filters stride a k) x =
     sequential (call keras_call) (sub_layers (Group n filters stride a k)) x
  /\ call keras_call (Group n filters stride a k) x =
     pipeline keras_call (leaves (Group n filters stride a k)) x
  /\ WideResidualNetwork_call keras_call
       (WideResidualNetwork_init ishape group_size pool a k) x =
     pipeline keras_call
       (flat_map leaves
          (groups (WideResidualNetwork_init ishape group_size pool a k))) x
  /\ (forall y : Z,
        call (fun _ t => Ok t) (BottleneckBlock filters stride a k) y = Ok y).
Proof.
  split; [|split; [|split; [|split; [|split]]]].
  - unfold BottleneckBlock. rewrite call_block. cbn [sequential].
    destruct (call keras_call _ x) as [x1|]; cbn [bind]; [|reflexivity].
    destruct (call keras_call _ x1) as [x2|]; cbn [bind]; [|reflexivity].
    apply bind_ok.
  - unfold Group. change (range (1 - 1)) with (@nil Z). cbn [map app].
    rewrite call_block. cbn [sequential]. apply bind_ok.
  - reflexivity.
  - apply call_pipeline, inhabited_Group.
  - unfold WideResidualNetwork_call. rewrite WideResidualNetwork_groups.
    change (x0 <- call keras_call ?f x ;; sequential (call keras_call) ?r x0)
      with (sequential (call keras_call) (f :: r) x).
    apply sequential_pipeline.
    + apply Forall_forall. intros l _ Hl. now apply call_pipeline.
    + cbn [forallb]. rewrite !inhabited_Group. reflexivity.
  - intro y. reflexivity.
Qed.

(** C7. A bottleneck unit has exactly three sub-layers, all convolution
    units: a 1x1 unit with the stride of the bottleneck, a 3x3 unit with
    stride 1 and a 1x1 unit with stride 1. Each is built with filter count
    [filters * k] (and its own multiplier 1), so each of the three
    convolutions has [filters * k] filters and each child's shape rule
    reports [filters * k] channels. *)
Theorem BottleneckBlock_structure (filters stride : Z) (a : ActivationClass)
    (k : Z) :
  sub_layers (BottleneckBlock filters stride a k) =
    [ ConvolutionBlock (filters * k) (1, 1) stride a 1;
      ConvolutionBlock (filters * k) (3, 3) 1 a 1;
      ConvolutionBlock (filters * k) (1, 1) 1 a 1 ]
  /\ map class_of (sub_layers (BottleneckBlock filters stride a k)) =
     [Some ConvolutionBlockCls; Some ConvolutionBlockCls;
      Some ConvolutionBlockCls]
  /\ map stride_of (sub_layers (BottleneckBlock filters stride a k)) =
     [stride; 1; 1]
  /\ map (fun u => filters_of u * k_of u)
         (sub_layers (BottleneckBlock filters stride a k)) =
     [filters * k; filters * k; filters * k]
  /\ leaves (BottleneckBlock filters stride a k) =
     [ BatchNormalization; Activation a;
       Conv2D None (filters * k) (1, 1) stride same;
       BatchNormalization; Activation a;
       Conv2D None (filters * k) (3, 3) 1 same;
       BatchNormalization; Activation a;
       Conv2D None (filters * k) (1, 1) 1 same ].
Proof.
  repeat split; simpl; rewrite ?Z.mul_1_r; reflexivity.
Qed.

(** C8. The network holds, in this order: the stem convolution, 3x3, with
    the stage 0 stride 4 and the stage 0 filter count 16 (the width
    multiplier does not enter it); one group for each of the stages 1, 2
    and 3, with the group depth, the stage's filter count (16, 32, 64) and
    stride (1, 2, 2) and the width multiplier [k]; the average pooling of
    the configured size. *)
Theorem WideResidualNetwork_assembly (ishape : shape) (group_size pool : Z)
    (a : ActivationClass) (k : Z) :
  FILTER_SIZES = [16; 16; 32; 64]
  /\ STRIDES = [4; 1; 2; 2]
  /\ groups (WideResidualNetwork_init ishape group_size pool a k) =
     [ Keras (Conv2D (Some ishape) (item FILTER_SIZES 0) (3, 3)
                     (item STRIDES 0) same);
       Group group_size (item FILTER_SIZES 1) (item STRIDES 1) a k;
       Group group_size (item FILTER_SIZES 2) (item STRIDES 2) a k;
       Group group_size (item FILTER_SIZES 3) (item STRIDES 3) a k;
       Keras (AvgPool2D pool) ]
  /\ groups (WideResidualNetwork_init ishape group_size pool a k) =
     [ Keras (Conv2D (Some ishape) 16 (3, 3) 4 same);
       Group group_size 16 1 a k;
       Group group_size 32 2 a k;
       Group group_size 64 2 a k;
       Keras (AvgPool2D pool) ]
  /\ pool_size (WideResidualNetwork_init ishape group_size pool a k) = pool.
Proof. repeat split. Qed.




(** C10. For every bottleneck unit and every group the constructors build,
    and every input shape, threading the shape through the shape rules of
    the sub-layers in order gives exactly what the block's own shape rule
    gives: the same shape, or the same exception. For the second group of
    the network at depth 13, on the shape (1, 57, 57, 16), both give
    (1, 28, 28, 32). *)
Theorem block_rule_is_children_composition (n filters stride : Z)
    (a : ActivationClass) (k : Z) (input_shape : shape) :
  thread_shapes (sub_layers (BottleneckBlock filters stride a k)) input_shape
    = compute_output_shape (BottleneckBlock filters stride a k) input_shape
  /\ thread_shapes (sub_layers (Group n filters stride a k)) input_shape
     = compute_output_shape (Group n filters stride a k) input_shape
  /\ thread_shapes (sub_layers (Group 13 32 2 ReLU 1)) [1; 57; 57; 16]
     = Ok [1; 28; 28; 32].
Proof.
  split; [|split; [|reflexivity]].
  - assert (E1 : compute_output_shape
                   (ConvolutionBlock (filters * k) (1, 1) stride a 1) input_shape
                 = compute_output_shape (BottleneckBlock filters stride a k)
                     input_shape)
      by (apply rule_channels_eq; lia).
    unfold thread_shapes. unfold BottleneckBlock at 1.
    cbn [sub_layers sequential]. rewrite E1.
    destruct (compute_output_shape (BottleneckBlock filters stride a k)
                input_shape) as [out|e] eqn:E; cbn [bind]; [|reflexivity].
    assert (E2 : forall ksize,
               compute_output_shape
                 (ConvolutionBlock (filters * k) ksize 1 a 1) out = Ok out).
    { intro ksize. eapply rule_then_stride1; [|exact E]. lia. }
    rewrite E2. cbn [bind]. rewrite E2. reflexivity.
  - assert (E1 : compute_output_shape (BottleneckBlock filters stride a k)
                   input_shape
                 = compute_output_shape (Group n filters stride a k)
                     input_shape) by reflexivity.
    unfold thread_shapes. rewrite Group_sub_layers. cbn [sequential].
    rewrite E1.
    destruct (compute_output_shape (Group n filters stride a k) input_shape)
      as [out|e] eqn:E; cbn [bind]; [|reflexivity].
    apply sequential_repeat_fixed.
    eapply rule_then_stride1; [|exact E]. reflexivity.
Qed.

(** * Further properties of the code *)

(** ** When the shape rule of a block returns *)

(** X1. The rule of a block returns a shape exactly when the input has at
    least three dimensions, the stride is not zero and none of the batch
    size, the two quotients and [filters * k] is negative; the shape is then
    [(batch, h // stride, w // stride, filters * k)]. The channel dimension
    of the input and any further dimension play no part. *)
Theorem block_rule_returns_iff (cls : LayerClass) (subs : list Layer)
    (stride filters k : Z) (input_shape out : shape) :
  compute_output_shape (Block cls subs stride filters k) input_shape = Ok out
  <-> exists b h w rest,
        input_shape = b :: h :: w :: rest
        /\ stride <> 0
        /\ 0 <= b /\ 0 <= h / stride /\ 0 <= w / stride /\ 0 <= filters * k
        /\ out = [b; h / stride; w / stride; filters * k].
Proof.
  split.
  - intro H. pose proof (block_shape_rule_inv _ _ _ _ _ _ _ H) as Hinv.
    destruct input_shape as [|b [|h [|w rest]]]; try discriminate H.
    + unfold compute_output_shape, floordiv in H; simpl in H.
      destruct (stride =? 0); discriminate H.
    + exists b, h, w, rest.
      unfold compute_output_shape, floordiv in H; simpl in H.
      destruct (stride =? 0) eqn:Es; [discriminate H|]. simpl in H.
      apply Z.eqb_neq in Es.
      apply TensorShape_inv in H as [-> HF].
      repeat match goal with
             | H : Forall _ (_ :: _) |- _ => inversion H; subst; clear H
             end.
      repeat split; assumption.
  - intros (b & h & w & rest & -> & Hs & Hb & Hh & Hw & Hc & ->).
    unfold compute_output_shape, floordiv; simpl.
    apply Z.eqb_neq in Hs; rewrite Hs; simpl.
    now apply TensorShape_nonneg.
Qed.

(** X2. The exception the rule of a block raises. With stride 0 it is a
    [ZeroDivisionError] as soon as the input has two dimensions; an input
    of fewer than two dimensions, or of two dimensions with a stride other
    than 0, gives an [IndexError]; with at least three dimensions and a
    stride other than 0 the only exception is the [ValueError] for a
    negative dimension of the result. *)
Theorem block_rule_exception (cls : LayerClass) (subs : list Layer)
    (stride filters k b h w : Z) (rest : shape) :
  compute_output_shape (Block cls subs stride filters k) [] = Raise IndexError
  /\ compute_output_shape (Block cls subs stride filters k) [b]
     = Raise IndexError
  /\ compute_output_shape (Block cls subs 0 filters k) (b :: h :: rest)
     = Raise ZeroDivisionError
  /\ (stride <> 0 ->
      compute_output_shape (Block cls subs stride filters k) [b; h]
      = Raise IndexError)
  /\ (stride <> 0 ->
      forall e,
        compute_output_shape (Block cls subs stride filters k)
          (b :: h :: w :: rest) = Raise e ->
        e = ValueError
        /\ (b < 0 \/ h / stride < 0 \/ w / stride < 0 \/ filters * k < 0)).
Proof.
  split; [reflexivity|]. split; [reflexivity|]. split; [reflexivity|].
  split.
  - intro Hs. unfold compute_output_shape, floordiv; simpl.
    apply Z.eqb_neq in Hs; rewrite Hs. reflexivity.
  - intros Hs e. unfold compute_output_shape, floordiv, TensorShape; simpl.
    apply Z.eqb_neq in Hs; rewrite Hs; simpl.
    destruct (0 <=? b) eqn:Eb; simpl;
      [|intro H; injection H as <-; split; [reflexivity|];
        apply Z.leb_gt in Eb; auto].
    destruct (0 <=? h / stride) eqn:Eh; simpl;
      [|intro H; injection H as <-; split; [reflexivity|];
        apply Z.leb_gt in Eh; auto].
    destruct (0 <=? w / stride) eqn:Ew; simpl;
      [|intro H; injection H as <-; split; [reflexivity|];
        apply Z.leb_gt in Ew; auto].
    destruct (0 <=? filters * k) eqn:Ec; simpl;
      [discriminate|intro H; injection H as <-; split; [reflexivity|];
        apply Z.leb_gt in Ec; auto].
Qed.

Lemma block_rule_exception_witness :
  (2 <> 0)
  /\ compute_output_shape (Block GroupCls [] 2 16 1) [1; 8] = Raise IndexError
  /\ (forall e,
        compute_output_shape (Block GroupCls [] 2 16 1) [1; 8; 8; 3]
          = Raise e ->
        e = ValueError
        /\ (1 < 0 \/ 8 / 2 < 0 \/ 8 / 2 < 0 \/ 16 * 1 < 0)).
Proof.
  split; [lia|].
  pose proof (block_rule_exception GroupCls [] 2 16 1 1 8 8 [3]) as H.
  destruct H as (_ & _ & _ & H4 & H5).
  split; [apply H4; lia | apply H5; lia].
Defined.

(** ** How far the rules are from the forward pass *)

Lemma floor_le_same (n s : Z) : 0 < s -> n / s <= (n + s - 1) / s.
Proof. intro Hs. apply Z.div_le_mono; lia. Qed.

Lemma floor_eq_same_iff (n s : Z) :
  0 < s -> (n / s = (n + s - 1) / s <-> n mod s = 0).
Proof.
  intro Hs.
  pose proof (Z.div_mod n s ltac:(lia)) as Hn.
  pose proof (Z.mod_pos_bound n s Hs) as Hr.
  assert (E : (n + s - 1) / s = n / s + (n mod s + s - 1) / s).
  { replace (n + s - 1) with (n / s * s + (n mod s + s - 1)) by lia.
    rewrite Z.div_add_l by lia. reflexivity. }
  rewrite E. split.
  - intro H. assert (H0 : (n mod s + s - 1) / s = 0) by lia.
    apply Z.div_small_iff in H0; lia.
  - intro H. rewrite H. rewrite (Z.div_small (0 + s - 1) s) by lia. lia.
Qed.

(** X3. On a shape of non-negative dimensions, for a positive stride and a
    channel count that is not negative, the shape rule of a group (of any
    depth) and the forward pass of the group give the same shape exactly
    when the stride divides the height and the width. *)
Theorem Group_rule_matches_forward_iff (n filters stride : Z)
    (a : ActivationClass) (k b h w c : Z) :
  0 <= b -> 0 <= h -> 0 <= w -> 0 < stride -> 0 <= filters * k ->
  (compute_output_shape (Group n filters stride a k) [b; h; w; c]
   = call_shape (Group n filters stride a k) [b; h; w; c]
   <-> h mod stride = 0 /\ w mod stride = 0).
Proof.
  intros Hb Hh Hw Hs Hc.
  rewrite Group_call_shape by assumption.
  unfold Group. rewrite block_shape_rule;
    try assumption; try lia; try (apply Z.div_pos; lia).
  rewrite <- !floor_eq_same_iff by assumption.
  split.
  - intro H. injection H as H1 H2. split; assumption.
  - intros [H1 H2]. rewrite H1, H2. reflexivity.
Qed.

Lemma Group_rule_matches_forward_iff_witness :
  (0 <= 1 /\ 0 <= 57 /\ 0 <= 58 /\ 0 < 2 /\ 0 <= 32 * 1)
  /\ (compute_output_shape (Group 13 32 2 ReLU 1) [1; 57; 58; 16]
      = call_shape (Group 13 32 2 ReLU 1) [1; 57; 58; 16]
      <-> 57 mod 2 = 0 /\ 58 mod 2 = 0).
Proof.
  split; [lia|].
  apply (Group_rule_matches_forward_iff 13 32 2 ReLU 1 1 57 58 16); lia.
Defined.

Lemma runtime_size_eq (n pool : Z) :
  runtime_size n pool = ((((n + 3) / 4 + 1) / 2 + 1) / 2) / pool.
Proof.
  unfold runtime_size. cbv zeta. rewrite Z.div_1_r.
  replace (n + 4 - 1) with (n + 3) by lia.
  replace ((n + 3) / 4 + 1 - 1 + 2 - 1) with ((n + 3) / 4 + 1) by lia.
  replace (((n + 3) / 4 + 1) / 2 + 2 - 1) with (((n + 3) / 4 + 1) / 2 + 1)
    by lia.
  f_equal. lia.
Qed.

Lemma sixteenth_le (n : Z) : n / 16 <= (((n + 3) / 4 + 1) / 2 + 1) / 2.
Proof. Z.div_mod_to_equations. lia. Qed.

Lemma sixteenth_exact (m : Z) : (((16 * m + 3) / 4 + 1) / 2 + 1) / 2 = m.
Proof. Z.div_mod_to_equations. lia. Qed.

Lemma rule_size_le_runtime_size (n pool : Z) :
  0 < pool -> n / (16 * pool) <= runtime_size n pool.
Proof.
  intro Hp. rewrite runtime_size_eq, <- Z.div_div by lia.
  apply Z.div_le_mono; [lia | apply sixteenth_le].
Qed.

Lemma rule_size_eq_runtime_size (n pool : Z) :
  0 < pool -> n mod (16 * pool) = 0 -> n / (16 * pool) = runtime_size n pool.
Proof.
  intros Hp Hn. rewrite runtime_size_eq, <- Z.div_div by lia.
  f_equal.
  apply Z.mod_divide in Hn; [|lia]. destruct Hn as [q ->].
  replace (q * (16 * pool)) with (16 * (q * pool)) by lia.
  rewrite sixteenth_exact.
  replace (16 * (q * pool)) with (q * pool * 16) by lia.
  now rewrite Z.div_mul by lia.
Qed.

(** X4. On a shape of dimensions that are not negative and fit 64 bits, and
    for a positive pool size with [16 * pool_size] within 64 bits, the rule
    of the network and its forward pass both return a shape with the batch
    size of the input; the height and width the rule reports are never
    larger than those the forward pass produces, and equal them when
    [16 * pool_size] divides the height and the width of the input. For a
    255 x 255 input and pool size 8 the rule reports 1 x 1 where the
    forward pass produces 2 x 2. *)
Theorem network_rule_never_exceeds_forward (ishape : shape)
    (group_size pool : Z) (a : ActivationClass) (k b h w c : Z) :
  0 <= b -> 0 <= h < two63 -> 0 <= w < two63 ->
  0 < pool -> 16 * pool < two63 ->
  let net := WideResidualNetwork_init ishape group_size pool a k in
  (exists rh rw fh fw,
      WideResidualNetwork_compute_output_shape net [b; h; w; c]
        = Ok [b; rh; rw; 64]
      /\ WideResidualNetwork_call_shape net [b; h; w; c]
        = Ok [b; fh; fw; 64 * k]
      /\ rh <= fh /\ rw <= fw
      /\ (h mod (16 * pool) = 0 -> rh = fh)
      /\ (w mod (16 * pool) = 0 -> rw = fw))
  /\ WideResidualNetwork_compute_output_shape
       (WideResidualNetwork_init ishape group_size 8 a k) [b; 255; 255; c]
     = Ok [b; 1; 1; 64]
  /\ WideResidualNetwork_call_shape
       (WideResidualNetwork_init ishape group_size 8 a k) [b; 255; 255; c]
     = Ok [b; 2; 2; 64 * k].
Proof.
  intros Hb Hh Hw Hp Hd net; subst net. split; [|split].
  - exists (h / (16 * pool)), (w / (16 * pool)),
           (runtime_size h pool), (runtime_size w pool).
    rewrite WideResidualNetwork_shape_rule, WideResidualNetwork_call_shape_eq
      by assumption.
    repeat split;
      auto using rule_size_le_runtime_size, rule_size_eq_runtime_size.
  - rewrite WideResidualNetwork_shape_rule by (unfold two63; lia).
    reflexivity.
  - rewrite WideResidualNetwork_call_shape_eq by lia. reflexivity.
Qed.

Lemma network_rule_never_exceeds_forward_witness :
  (0 <= 1 /\ 0 <= 227 < two63 /\ 0 <= 256 < two63 /\ 0 < 8
   /\ 16 * 8 < two63)
  /\ exists rh rw fh fw,
       WideResidualNetwork_compute_output_shape
         (WideResidualNetwork_init [227; 227; 3] 13 8 ReLU 1)
         [1; 227; 256; 3] = Ok [1; rh; rw; 64]
       /\ WideResidualNetwork_call_shape
            (WideResidualNetwork_init [227; 227; 3] 13 8 ReLU 1)
            [1; 227; 256; 3] = Ok [1; fh; fw; 64 * 1]
       /\ rh <= fh /\ rw <= fw
       /\ (227 mod (16 * 8) = 0 -> rh = fh)
       /\ (256 mod (16 * 8) = 0 -> rw = fw).
Proof.
  split; [unfold two63; lia|].
  apply (network_rule_never_exceeds_forward [227; 227; 3] 13 8 ReLU 1
           1 227 256 3); unfold two63; lia.
Defined.

(** X5. The depth of a group does not show in the shapes: for a positive
    stride, groups of depths [n] and [m] with the same filters, stride and
    multiplier produce the same shape from a rank 4 input, that of their
    first bottleneck unit alone, and their shape rules coincide on every
    input. *)
Theorem Group_shapes_ignore_depth (n m filters stride : Z)
    (a : ActivationClass) (k b h w c : Z) (input_shape : shape) :
  0 < stride ->
  call_shape (Group n filters stride a k) [b; h; w; c]
    = call_shape (Group m filters stride a k) [b; h; w; c]
  /\ call_shape (Group n filters stride a k) [b; h; w; c]
     = call_shape (BottleneckBlock filters stride a k) [b; h; w; c]
  /\ compute_output_shape (Group n filters stride a k) input_shape
     = compute_output_shape (Group m filters stride a k) input_shape.
Proof.
  intro Hs.
  rewrite !Group_call_shape, BottleneckBlock_call_shape by assumption.
  repeat split.
Qed.

Lemma Group_shapes_ignore_depth_witness :
  0 < 2
  /\ call_shape (Group 13 32 2 ReLU 1) [1; 57; 57; 16]
     = call_shape (Group 1 32 2 ReLU 1) [1; 57; 57; 16].
Proof.
  split; [lia|].
  apply (Group_shapes_ignore_depth 13 1 32 2 ReLU 1 1 57 57 16 []); lia.
Defined.

(** ** The Keras layers of the network *)

Lemma conv_strides_app (l1 l2 : list KerasLayer) :
  conv_strides (l1 ++ l2) = conv_strides l1 ++ conv_strides l2.
Proof.
  induction l1 as [|kl l1 IH]; [reflexivity|].
  destruct kl; simpl; now rewrite IH.
Qed.

Lemma leaves_BottleneckBlock (filters stride : Z) (a : ActivationClass)
    (k : Z) :
  leaves (BottleneckBlock filters stride a k) =
    [ BatchNormalization; Activation a;
      Conv2D None (filters * k) (1, 1) stride same;
      BatchNormalization; Activation a;
      Conv2D None (filters * k) (3, 3) 1 same;
      BatchNormalization; Activation a;
      Conv2D None (filters * k) (1, 1) 1 same ].
Proof. simpl. rewrite !Z.mul_1_r. reflexivity. Qed.

Lemma flat_map_repeat {A B : Type} (f : A -> list B) (x : A) (m : nat) :
  flat_map f (repeat x m) = List.concat (repeat (f x) m).
Proof.
  induction m as [|m IH]; simpl; [reflexivity | now rewrite IH].
Qed.

Lemma leaves_Group (n filters stride : Z) (a : ActivationClass) (k : Z) :
  leaves (Group n filters stride a k) =
    leaves (BottleneckBlock filters stride a k)
    ++ List.concat (repeat (leaves (BottleneckBlock filters 1 a k))
                      (Z.to_nat (n - 1))).
Proof.
  rewrite Group_eq. cbn [leaves flat_map]. fold leaves.
  now rewrite flat_map_repeat.
Qed.

Lemma conv_strides_units (filters : Z) (a : ActivationClass) (k : Z)
    (m : nat) :
  conv_strides
    (List.concat (repeat (leaves (BottleneckBlock filters 1 a k)) m))
    = repeat 1 (3 * m).
Proof.
  induction m as [|m IH]; [reflexivity|].
  cbn [repeat List.concat].
  rewrite conv_strides_app, IH, leaves_BottleneckBlock.
  replace (3 * S m)%nat with (3 + 3 * m)%nat by lia. reflexivity.
Qed.

Lemma conv_strides_Group (n filters stride : Z) (a : ActivationClass)
    (k : Z) :
  conv_strides (leaves (Group n filters stride a k)) =
    stride :: repeat 1 (2 + 3 * Z.to_nat (n - 1)).
Proof.
  rewrite leaves_Group, conv_strides_app, conv_strides_units.
  rewrite leaves_BottleneckBlock. reflexivity.
Qed.

Lemma conv_strides_network (ishape : shape) (group_size pool : Z)
    (a : ActivationClass) (k : Z) :
  conv_strides
    (network_leaves (WideResidualNetwork_init ishape group_size pool a k)) =
    4 :: (1 :: repeat 1 (2 + 3 * Z.to_nat (group_size - 1)))
      ++ (2 :: repeat 1 (2 + 3 * Z.to_nat (group_size - 1)))
      ++ (2 :: repeat 1 (2 + 3 * Z.to_nat (group_size - 1))).
Proof.
  unfold network_leaves. rewrite WideResidualNetwork_groups.
  cbn [flat_map]. change (leaves (Keras ?kl)) with [kl].
  rewrite !conv_strides_app, !conv_strides_Group.
  cbn [conv_strides]. rewrite !app_nil_r. reflexivity.
Qed.






(** X6. A network of group depth [group_size] holds
    [1 + 9 * max(1, group_size)] convolutions (118 for the depth 13 of
    [Res]) among [2 + 27 * max(1, group_size)] Keras layers. *)
Theorem network_depth (ishape : shape) (group_size pool : Z)
    (a : ActivationClass) (k : Z) :
  let net := WideResidualNetwork_init ishape group_size pool a k in
  Z.of_nat (List.length (conv_strides (network_leaves net)))
    = 1 + 9 * Z.max 1 group_size
  /\ Z.of_nat (List.length (network_leaves net))
     = 2 + 27 * Z.max 1 group_size.
Proof.
  intro net; subst net. split.
  - rewrite conv_strides_network. cbn [List.length].
    rewrite !length_app. cbn [List.length]. rewrite !repeat_length. lia.
  - unfold network_leaves. rewrite WideResidualNetwork_groups.
    cbn [flat_map]. change (leaves (Keras ?kl)) with [kl].
    rewrite !leaves_Group, !leaves_BottleneckBlock.
    rewrite !length_app. cbn [List.length].
    assert (E : forall (l : list KerasLayer) m,
               List.length (List.concat (repeat l m))
               = (m * List.length l)%nat).
    { intros l m. induction m as [|m IH]; [reflexivity|].
      cbn [repeat List.concat]. rewrite length_app, IH. lia. }
    rewrite !E. cbn [List.length]. lia.
Qed.


(** ** Composition and failure in the forward pass *)

Section ForwardComposition.

Variable tensor : Type.
Variable keras_call : KerasLayer -> tensor -> result tensor.

Lemma sequential_app (f : Layer -> tensor -> result tensor)
    (l1 l2 : list Layer) (x : tensor) :
  sequential f (l1 ++ l2) x = (y <- sequential f l1 x ;; sequential f l2 y).
Proof.
  revert x; induction l1 as [|l l1 IH]; intro x; simpl; [reflexivity|].
  destruct (f l x) as [y|e]; simpl; [apply IH | reflexivity].
Qed.

Lemma call_nonempty (cls : LayerClass) (subs : list Layer)
    (stride filters k : Z) (x : tensor) :
  subs <> [] ->
  call keras_call (Block cls subs stride filters k) x =
    sequential (call keras_call) subs x.
Proof.
  destruct subs as [|first rest]; [congruence | reflexivity].
Qed.

End ForwardComposition.

(** X8. The forward pass of a block stops at the first sub-layer that
    raises: when the sub-layers before [l] turn the input into [y] and [l]
    raises [e] on [y], the block raises [e], whatever follows [l]. In
    general a block with sub-layers [before ++ l :: after] applies the
    layers [before], then [l], then the layers [after]. *)
Theorem call_stops_at_first_exception (tensor : Type)
    (keras_call : KerasLayer -> tensor -> result tensor)
    (cls : LayerClass) (before after : list Layer) (l : Layer)
    (stride filters k : Z) (x y : tensor) (e : exn) :
  sequential (call keras_call) before x = Ok y ->
  call keras_call l y = Raise e ->
  call keras_call (Block cls (before ++ l :: after) stride filters k) x
    = Raise e
  /\ (forall x',
        call keras_call (Block cls (before ++ l :: after) stride filters k) x'
        = (y' <- sequential (call keras_call) before x' ;;
           z <- call keras_call l y' ;;
           sequential (call keras_call) after z)).
Proof.
  intros Hy He.
  assert (Hne : before ++ l :: after <> []) by (destruct before; discriminate).
  assert (E : forall x',
             call keras_call
               (Block cls (before ++ l :: after) stride filters k) x'
             = (y' <- sequential (call keras_call) before x' ;;
                z <- call keras_call l y' ;;
                sequential (call keras_call) after z)).
  { intro x'. rewrite call_nonempty by assumption.
    rewrite sequential_app. reflexivity. }
  split; [|exact E].
  rewrite E, Hy. cbn [bind]. rewrite He. reflexivity.
Qed.

Lemma call_stops_at_first_exception_witness :
  sequential (call keras_shape) [Keras BatchNormalization] [1; 8; 8; 3]
    = Ok [1; 8; 8; 3]
  /\ call keras_shape (Keras (Conv2D None 16 (3, 3) 0 same)) [1; 8; 8; 3]
     = Raise ValueError
  /\ call keras_shape
       (Block BasicLayerCls
          ([Keras BatchNormalization]
           ++ Keras (Conv2D None 16 (3, 3) 0 same)
              :: [Keras (AvgPool2D 2)]) 1 16 1) [1; 8; 8; 3]
     = Raise ValueError.
Proof.
  split; [reflexivity|]. split; [reflexivity|].
  apply (call_stops_at_first_exception shape keras_shape BasicLayerCls
           [Keras BatchNormalization] [Keras (AvgPool2D 2)]
           (Keras (Conv2D None 16 (3, 3) 0 same)) 1 16 1
           [1; 8; 8; 3] [1; 8; 8; 3] ValueError eq_refl eq_refl).
Defined.

(** X9. The width multiplier enters a group through the product
    [filters * k] only: the group built with [filters] and [k] holds the
    same Keras layers as the group built with [filters * k] and multiplier
    1, so the two have the same forward pass, whatever the Keras layers
    compute, and the same shape rule. *)
Theorem width_multiplier_is_a_product (tensor : Type)
    (keras_call : KerasLayer -> tensor -> result tensor)
    (n filters stride : Z) (a : ActivationClass) (k : Z) (x : tensor)
    (input_shape : shape) :
  leaves (Group n filters stride a k) = leaves (Group n (filters * k) stride a 1)
  /\ call keras_call (Group n filters stride a k) x
     = call keras_call (Group n (filters * k) stride a 1) x
  /\ compute_output_shape (Group n filters stride a k) input_shape
     = compute_output_shape (Group n (filters * k) stride a 1) input_shape.
Proof.
  assert (E : leaves (Group n filters stride a k)
              = leaves (Group n (filters * k) stride a 1)).
  { rewrite !leaves_Group, !leaves_BottleneckBlock, !Z.mul_1_r.
    reflexivity. }
  split; [exact E|]. split.
  - rewrite !call_pipeline by apply inhabited_Group. now rewrite E.
  - apply rule_channels_eq. lia.
Qed.

(** ** Instantiating [Res] and [Resf] *)

Lemma build_positive (keras_accepts : KerasLayer -> bool) (ishape : shape)
    (group_size pool : Z) (a : ActivationClass) (k : Z) :
  (forall kl, positive_arguments kl = true -> keras_accepts kl = true) ->
  0 < k -> 0 < pool ->
  build keras_accepts ishape group_size pool a k
    = Ok (WideResidualNetwork_init ishape group_size pool a k).
Proof.
  intros Hacc Hk Hp. unfold build. cbv zeta.
  rewrite WideResidualNetwork_groups. cbn [forallb constructible].
  rewrite !(constructible_Group _ Hacc) by lia.
  rewrite !Hacc; [reflexivity | |].
  - cbn [positive_arguments]. apply Z.ltb_lt. lia.
  - reflexivity.
Qed.

(** X10. Instantiating [Res] or [Resf] never returns an instance, whatever
    Keras accepts and whatever the callback and [compile] do: neither
    [_build_model] assigns [self.model], so when [_compile_model] is
    reached and its callback is created, looking up [self.model.compile]
    on [None] fails. *)
Theorem evaluation_model_is_never_built (keras_accepts : KerasLayer -> bool)
    (dense_accepts : Z -> bool)
    (LearningRate DatasetName Callback Model : Type)
    (EmdWeightHeadStart : option Callback) (compile_returns : Model -> bool)
    (cls : ModelClass) (number_of_classes : Z) (final_activation : string)
    (learning_rate : LearningRate) (dataset_name : DatasetName) :
  exists f,
    EvaluationModel_init keras_accepts dense_accepts LearningRate DatasetName
      Callback Model EmdWeightHeadStart compile_returns cls number_of_classes
      final_activation learning_rate dataset_name = Fails f.
Proof.
  unfold EvaluationModel_init. cbv zeta.
  destruct cls; cbn [build_model].
  - unfold Res_build_model.
    destruct (build keras_accepts [227; 227; 3] 13 8 ReLU 1) as [net|e];
      [|eexists; reflexivity].
    destruct (dense_accepts number_of_classes); [|eexists; reflexivity].
    unfold compile_model.
    destruct EmdWeightHeadStart; eexists; reflexivity.
  - unfold Resf_build_model, compile_model.
    destruct EmdWeightHeadStart; eexists; reflexivity.
Qed.

(** X11. When Keras accepts layers with positive arguments, [Dense]
    accepts the number of classes and [EmdWeightHeadStart()] returns, the
    [_build_model] of [Res] returns with the network built (depth 13, pool
    size 8, multiplier 1), the flattening and the dense layer stored and
    [model] still [None], that of [Resf] returns the instance unchanged,
    and the instantiation of either class then fails with the
    [AttributeError] for [compile]. *)
Theorem evaluation_model_fails_at_compile (keras_accepts : KerasLayer -> bool)
    (dense_accepts : Z -> bool)
    (LearningRate DatasetName Callback Model : Type)
    (callback : Callback) (compile_returns : Model -> bool)
    (cls : ModelClass) (number_of_classes : Z) (final_activation : string)
    (rate : LearningRate) (name : DatasetName) :
  (forall kl, positive_arguments kl = true -> keras_accepts kl = true) ->
  dense_accepts number_of_classes = true ->
  let self : EvaluationModel LearningRate DatasetName Callback Model :=
    {| learning_rate := Some rate; dataset_name := Some name;
       model := None; wrn := None; flatten := false; dense3 := None;
       emd_weight_head_start := None |} in
  build_model keras_accepts dense_accepts LearningRate DatasetName Callback
    Model ResCls self number_of_classes final_activation
  = Returns
      {| learning_rate := Some rate; dataset_name := Some name;
         model := None;
         wrn := Some (WideResidualNetwork_init [227; 227; 3] 13 8 ReLU 1);
         flatten := true;
         dense3 := Some (number_of_classes, final_activation);
         emd_weight_head_start := None |}
  /\ build_model keras_accepts dense_accepts LearningRate DatasetName
       Callback Model ResfCls self number_of_classes final_activation
     = Returns self
  /\ EvaluationModel_init keras_accepts dense_accepts LearningRate
       DatasetName Callback Model (Some callback) compile_returns cls
       number_of_classes final_activation rate name
     = Fails (AttributeError "compile").
Proof.
  intros Hacc Hdense self; subst self.
  assert (E : build keras_accepts [227; 227; 3] 13 8 ReLU 1
              = Ok (WideResidualNetwork_init [227; 227; 3] 13 8 ReLU 1))
    by (apply build_positive; [exact Hacc | lia | lia]).
  split; [|split].
  - cbn [build_model]. unfold Res_build_model. rewrite E, Hdense. reflexivity.
  - reflexivity.
  - unfold EvaluationModel_init. cbv zeta.
    destruct cls; cbn [build_model].
    + unfold Res_build_model. rewrite E, Hdense. reflexivity.
    + reflexivity.
Qed.

Lemma evaluation_model_fails_at_compile_witness :
  (forall kl, positive_arguments kl = true -> positive_arguments kl = true)
  /\ (0 <? 8) = true
  /\ EvaluationModel_init positive_arguments (fun units => 0 <? units)
       Z string unit unit (Some tt) (fun _ => true) ResCls 8 "softmax"
       1 "ADIENCE"%string
     = Fails (AttributeError "compile").
Proof.
  split; [exact (fun _ H => H)|]. split; [reflexivity|].
  apply (evaluation_model_fails_at_compile positive_arguments
           (fun units => 0 <? units) Z string unit unit tt (fun _ => true)
           ResCls 8 "softmax" 1 "ADIENCE"%string (fun _ H => H) eq_refl).
Defined.

(** ** Preprocessing *)






(** ** Errors at construction *)

Lemma constructible_layers (keras_accepts : KerasLayer -> bool)
    (layers : list Layer) :
  Forall (fun l => constructible keras_accepts l
                   = forallb keras_accepts (leaves l)) layers ->
  forallb (constructible keras_accepts) layers
  = forallb keras_accepts (flat_map leaves layers).
Proof.
  induction 1 as [|l layers Hl _ IH]; [reflexivity|].
  cbn [forallb flat_map]. now rewrite forallb_app, Hl, IH.
Qed.

(** A layer can be built exactly when Keras accepts each of its Keras
    layers. *)
Lemma constructible_leaves (keras_accepts : KerasLayer -> bool) (l : Layer) :
  constructible keras_accepts l = forallb keras_accepts (leaves l).
Proof.
  induction l as [kl | cls subs stride filters k IH] using Layer_nested_ind.
  - simpl. now rewrite andb_true_r.
  - cbn [constructible leaves]. now apply constructible_layers.
Qed.

Lemma forallb_false_In {A : Type} (p : A -> bool) (l : list A) :
  forallb p l = false -> exists x, In x l /\ p x = false.
Proof.
  induction l as [|x l IH]; [discriminate|].
  cbn [forallb]. destruct (p x) eqn:E.
  - intro H. destruct (IH H) as (y & Hy & Hp). exists y. split; [now right|].
    exact Hp.
  - intros _. exists x. split; [now left | exact E].
Qed.

Lemma Group_refused (keras_accepts : KerasLayer -> bool)
    (n filters stride : Z) (a : ActivationClass) (k : Z) :
  (forall kl, positive_arguments kl = false -> keras_accepts kl = false) ->
  filters * k <= 0 \/ stride <= 0 ->
  constructible keras_accepts (Group n filters stride a k) = false.
Proof.
  intros Hrej Hbad.
  rewrite constructible_leaves, leaves_Group, leaves_BottleneckBlock.
  cbn [app forallb].
  assert (E : keras_accepts (Conv2D None (filters * k) (1, 1) stride same)
              = false).
  { apply Hrej. cbn [positive_arguments].
    destruct Hbad as [H|H].
    - now rewrite (proj2 (Z.ltb_ge 0 (filters * k))) by lia.
    - rewrite (proj2 (Z.ltb_ge 0 stride)) by lia.
      now rewrite andb_false_r. }
  rewrite E.
  destruct (keras_accepts BatchNormalization),
           (keras_accepts (Activation a)); reflexivity.
Qed.

(** C5 (amended). Construction fails at once, with no network or group
    returned, in the cases Keras refuses: with a Keras that refuses
    arguments that are not positive, building the network with a width
    multiplier [k <= 0] raises, and so does building a group whose product
    [filters * k] is not positive or whose stride is not positive. The
    constructors themselves validate nothing: whenever building the network
    or a group raises, Keras has refused one of its Keras layers. The
    filter counts and strides of the network are the positive constants of
    the class. A group depth that is not positive is no error: with a Keras
    that accepts positive arguments, for every group depth, [k >= 1] and
    pool size [>= 1] the network is built, a group with positive
    [filters * k] and stride is built, and a depth [<= 1] gives each group
    of the network exactly one bottleneck unit. *)
Theorem construction_fails_only_in_keras (keras_accepts : KerasLayer -> bool)
    (ishape : shape) (group_size pool n filters stride : Z)
    (a : ActivationClass) (k : Z) :
  let net := WideResidualNetwork_init ishape group_size pool a k in
  let group := Group n filters stride a k in
  (forall e, build keras_accepts ishape group_size pool a k = Raise e ->
     exists kl, In kl (network_leaves net) /\ keras_accepts kl = false)
  /\ (forall e, construct keras_accepts group = Raise e ->
        exists kl, In kl (leaves group) /\ keras_accepts kl = false)
  /\ ((forall kl, positive_arguments kl = false -> keras_accepts kl = false) ->
      (k <= 0 ->
       build keras_accepts ishape group_size pool a k = Raise ValueError)
      /\ (filters * k <= 0 \/ stride <= 0 ->
          construct keras_accepts group = Raise ValueError))
  /\ ((forall kl, positive_arguments kl = true -> keras_accepts kl = true) ->
      (1 <= k -> 1 <= pool ->
       build keras_accepts ishape group_size pool a k = Ok net)
      /\ (0 < filters * k -> 0 < stride ->
          construct keras_accepts group = Ok group))
  /\ Forall (fun d => 0 < d) (FILTER_SIZES ++ STRIDES)
  /\ (group_size <= 1 ->
      forall g, In g (groups net) -> class_of g = Some GroupCls ->
                exists f s, sub_layers g = [BottleneckBlock f s a k]).
Proof.
  intros net group; subst net group.
  split; [|split; [|split; [|split; [|split]]]].
  - intros e. unfold build. cbv zeta.
    destruct (forallb (constructible keras_accepts) _) eqn:E; [discriminate|].
    intros _. apply forallb_false_In.
    unfold network_leaves. rewrite <- constructible_layers; [exact E|].
    apply Forall_forall. intros l _. apply constructible_leaves.
  - intros e. unfold construct.
    destruct (constructible keras_accepts _) eqn:E; [discriminate|].
    intros _. apply forallb_false_In. now rewrite <- constructible_leaves.
  - intro Hrej. split.
    + intro Hk. unfold build. cbv zeta.
      rewrite WideResidualNetwork_groups. cbn [forallb constructible].
      rewrite (Group_refused keras_accepts group_size 16 1 a k Hrej)
        by (left; lia).
      now destruct (keras_accepts _).
    + intro Hbad. unfold construct.
      now rewrite (Group_refused keras_accepts n filters stride a k Hrej Hbad).
  - intro Hacc. split.
    + intros Hk Hp. apply build_positive; [exact Hacc | lia | lia].
    + intros Hf Hs. unfold construct.
      now rewrite (constructible_Group keras_accepts Hacc).
  - unfold FILTER_SIZES, STRIDES; simpl. repeat constructor.
  - intros Hg g Hin Hcls. rewrite WideResidualNetwork_groups in Hin.
    simpl in Hin.
    destruct Hin as [<-|[<-|[<-|[<-|[<-|[]]]]]]; try discriminate Hcls;
      rewrite Group_sub_layers;
      replace (Z.to_nat (group_size - 1)) with 0%nat by lia;
      eexists _, _; reflexivity.
Qed.

Lemma construction_fails_only_in_keras_witness :
  (forall kl, positive_arguments kl = false -> positive_arguments kl = false)
  /\ (forall kl, positive_arguments kl = true -> positive_arguments kl = true)
  /\ 0 <= 0 /\ (16 * 0 <= 0 \/ 2 <= 0) /\ 1 <= 1 /\ 1 <= 8 /\ 0 < 16 * 1
  /\ 0 < 2 /\ -3 <= 1
  /\ build positive_arguments [227; 227; 3] 13 8 ReLU 0 = Raise ValueError
  /\ construct positive_arguments (Group 13 16 2 ReLU 0) = Raise ValueError
  /\ build positive_arguments [227; 227; 3] (-3) 8 ReLU 1
     = Ok (WideResidualNetwork_init [227; 227; 3] (-3) 8 ReLU 1)
  /\ construct positive_arguments (Group (-3) 16 2 ReLU 1)
     = Ok (Group (-3) 16 2 ReLU 1).
Proof.
  pose proof (construction_fails_only_in_keras positive_arguments
                [227; 227; 3] 13 8 13 16 2 ReLU 0) as H0.
  pose proof (construction_fails_only_in_keras positive_arguments
                [227; 227; 3] (-3) 8 (-3) 16 2 ReLU 1) as H1.
  cbv zeta in H0, H1.
  destruct H0 as (_ & _ & Hrej & _).
  destruct H1 as (_ & _ & _ & Hacc & _).
  destruct (Hrej (fun _ H => H)) as [Hb Hg].
  destruct (Hacc (fun _ H => H)) as [Hb' Hg'].
  repeat (split; [first [exact (fun _ H => H) | lia | left; lia]|]).
  split; [apply Hb; lia|]. split; [apply Hg; left; lia|].
  split; [apply Hb'; lia | apply Hg'; lia].
Defined.
